(** * Wisdom of the crowds: the guessing cell of [00_ensemble_methods_STARTER.ipynb]

    The notebook's only computation of its own is the cell that averages a
    list of weight guesses and counts the players whose guess is closer to
    the true weight than the average:

<<
    list_of_guesses = []
    average_guess = np.mean(list_of_guesses)
    winner_count = 0
    for guess in list_of_guesses:
        if abs(guess - 1355) < abs(average_guess - 1355):
            winner_count += 1
            print("We have a winner!")
    print(f'The average guess is {average_guess}.')
    print(f'The number of people ... is {winner_count}.')
    print(f'That is roughly {np.round(winner_count/len(list_of_guesses),0)}% of guesses!')
>>

    The cell is embedded as a program over the kernel's global variables, in
    a small monad with state, printed output and Python exceptions.

    Numbers.  Guesses are rationals and arithmetic on them is exact: the
    rounding of binary64 is abstracted away, and [nan] is kept as a value of
    its own because [np.mean] of an empty list returns it.  Python [int]s
    are [Z].

    The true weight.  The cell writes the literal [1355] twice.  The
    embedding takes it as the parameter [truth]; [penelope_cell] is the cell
    as written. *)

From Stdlib Require Import QArith Qabs Qround ZArith List Bool Lia Lqa Permutation.
Import ListNotations.
Local Open Scope Q_scope.

(** ** Values *)

(** A NumPy [float64]: not-a-number, or a finite value. *)
Inductive float64 : Type :=
| nan
| fin (q : Q).

(** Strict comparison of rationals as a boolean, by [Qcompare]. *)
Definition Qltb (x y : Q) : bool :=
  match x ?= y with
  | Lt => true
  | _ => false
  end.

(** [a - b] for a float [a] and a number [b]; [nan] propagates. *)
Definition float_sub (a : float64) (b : Q) : float64 :=
  match a with
  | nan => nan
  | fin x => fin (x - b)
  end.

(** [abs(a)] for a float. *)
Definition float_abs (a : float64) : float64 :=
  match a with
  | nan => nan
  | fin x => fin (Qabs x)
  end.

(** [x < a] for a number [x] and a float [a]: every comparison with [nan]
    is false. *)
Definition lt_float (x : Q) (a : float64) : bool :=
  match a with
  | nan => false
  | fin y => Qltb x y
  end.

(** [len(l)], a Python [int]. *)
Definition len {A : Type} (l : list A) : Z := Z.of_nat (length l).

(** [np.add.reduce]: the sum, accumulated from the left starting at 0. *)
Definition np_sum (l : list Q) : Q := fold_left Qplus l 0.

(** [np.mean(l)]: the sum over the number of items; on an empty list NumPy
    divides 0.0 by 0, warns and returns [nan], it does not raise. *)
Definition np_mean (l : list Q) : float64 :=
  if (len l =? 0)%Z then nan else fin (np_sum l / inject_Z (len l)).

(** Rounding to the nearest integer, halves to the even neighbour
    ([np.rint]). *)
Definition rint (x : Q) : Z :=
  let f := Qfloor x in
  match ((x - inject_Z f) ?= (1 # 2))%Q with
  | Lt => f
  | Gt => (f + 1)%Z
  | Eq => if Z.even f then f else (f + 1)%Z
  end.

(** [np.round(x, decimals)] for [decimals >= 0]. *)
Definition np_round (x : Q) (decimals : nat) : Q :=
  let scale := inject_Z (10 ^ Z.of_nat decimals) in
  inject_Z (rint (x * scale)) / scale.

(** ** The kernel: globals, output, exceptions *)

Inductive exception : Type :=
| ZeroDivisionError
| NameError.

(** A printed line, with the value interpolated into it. *)
Inductive line : Type :=
| WinnerLine                     (* We have a winner! *)
| AverageLine (avg : float64)    (* The average guess is {average_guess}. *)
| CountLine (n : Z)              (* The number of people ... is {winner_count}. *)
| PercentLine (p : Q).           (* That is roughly {...}% of guesses! *)

(** The global variables the cell touches; [None] is an unbound name. *)
Record globals : Type := mkGlobals {
  list_of_guesses : option (list Q);
  average_guess : option float64;
  winner_count : option Z;
  guess : option Q
}.

Inductive outcome (A : Type) : Type :=
| Returned (a : A)
| Raised (e : exception).
Arguments Returned {A} a.
Arguments Raised {A} e.

Module Py.

(** A statement or expression: from the globals to an outcome, the
    globals after it, and the lines it printed. An exception keeps the
    state and the output reached so far. *)
Definition t (A : Type) : Type := globals -> outcome A * globals * list line.

Definition ret {A : Type} (a : A) : t A := fun g => (Returned a, g, []).

Definition bind {A B : Type} (m : t A) (k : A -> t B) : t B := fun g =>
  match m g with
  | (Returned a, g1, o1) =>
      let '(r, g2, o2) := k a g1 in (r, g2, o1 ++ o2)
  | (Raised e, g1, o1) => (Raised e, g1, o1)
  end.

Definition raise {A : Type} (e : exception) : t A := fun g => (Raised e, g, []).

Definition print (l : line) : t unit := fun g => (Returned tt, g, [l]).

(** Reading a global: [NameError] when it is unbound. *)
Definition load {A : Type} (var : globals -> option A) : t A := fun g =>
  match var g with
  | Some v => (Returned v, g, [])
  | None => (Raised NameError, g, [])
  end.

Definition store_list_of_guesses (v : list Q) : t unit := fun g =>
  (Returned tt,
   mkGlobals (Some v) (average_guess g) (winner_count g) (guess g), []).

Definition store_average_guess (v : float64) : t unit := fun g =>
  (Returned tt,
   mkGlobals (list_of_guesses g) (Some v) (winner_count g) (guess g), []).

Definition store_winner_count (v : Z) : t unit := fun g =>
  (Returned tt,
   mkGlobals (list_of_guesses g) (average_guess g) (Some v) (guess g), []).

Definition store_guess (v : Q) : t unit := fun g =>
  (Returned tt,
   mkGlobals (list_of_guesses g) (average_guess g) (winner_count g) (Some v), []).

(** [a / b] on Python ints: true division, raising on a zero divisor. *)
Definition truediv (a b : Z) : t Q :=
  if (b =? 0)%Z then raise ZeroDivisionError
  else ret (inject_Z a / inject_Z b).

End Py.

Declare Scope py_scope.
Delimit Scope py_scope with py.
Notation "x <- m ;; k" := (Py.bind m (fun x => k))
  (at level 61, m at next level, right associativity) : py_scope.
Notation "m ;; k" := (Py.bind m (fun _ => k))
  (at level 61, right associativity) : py_scope.

(** ** The cell *)

Section Cell.

(** The true weight, [1355] in the notebook. *)
Variable truth : Q.

(** The test of the [if]:
    [abs(guess - 1355) < abs(average_guess - 1355)]. *)
Definition closer (x : Q) (avg : float64) : bool :=
  lt_float (Qabs (x - truth)) (float_abs (float_sub avg truth)).

(** The body of the loop. It returns the value its test had, which the
    Python code does not keep: the embedding records it so that the
    per-guess verdicts can be read off a run. *)
Definition loop_body : Py.t bool :=
  (x <- Py.load guess ;;
   avg <- Py.load average_guess ;;
   if closer x avg then
     (w <- Py.load winner_count ;;
      Py.store_winner_count (w + 1) ;;
      Py.print WinnerLine ;;
      Py.ret true)
   else Py.ret false)%py.

(** [for guess in xs: body], collecting the values of the tests. *)
Fixpoint for_guess_in (xs : list Q) : Py.t (list bool) :=
  match xs with
  | [] => Py.ret []
  | x :: rest =>
      (Py.store_guess x ;;
       b <- loop_body ;;
       bs <- for_guess_in rest ;;
       Py.ret (b :: bs))%py
  end.

(** The expression [winner_count/len(list_of_guesses)]. *)
Definition winner_fraction : Py.t Q :=
  (w <- Py.load winner_count ;;
   l <- Py.load list_of_guesses ;;
   Py.truediv w (len l))%py.

(** The whole cell, with [guesses] the list written on its first line.
    It returns the tests' values, in the order of the guesses. *)
Definition cell (guesses : list Q) : Py.t (list bool) :=
  (Py.store_list_of_guesses guesses ;;
   l <- Py.load list_of_guesses ;;
   Py.store_average_guess (np_mean l) ;;
   Py.store_winner_count 0 ;;
   l <- Py.load list_of_guesses ;;
   verdicts <- for_guess_in l ;;
   avg <- Py.load average_guess ;;
   Py.print (AverageLine avg) ;;
   w <- Py.load winner_count ;;
   Py.print (CountLine w) ;;
   f <- winner_fraction ;;
   Py.print (PercentLine (np_round f 0)) ;;
   Py.ret verdicts)%py.

End Cell.

(** The cell as the notebook has it. *)
Definition penelope_cell : list Q -> Py.t (list bool) := cell 1355.

(** A kernel in which none of the cell's names is bound yet. *)
Definition fresh_kernel : globals := mkGlobals None None None None.

(** ** What a run leaves behind *)

(** Number of [true] tests. *)
Definition count_true (bs : list bool) : nat := length (filter (fun b => b) bs).

(** The binding of the loop variable after iterating over [xs]: the last
    item, or the earlier binding when there was no iteration. *)
Definition final_guess (xs : list Q) (before : option Q) : option Q :=
  fold_left (fun _ x => Some x) xs before.

(** The exact quotient of the sum by the number of guesses. *)
Definition average (l : list Q) : Q := np_sum l / inject_Z (len l).

(** The three parts of a run. *)
Definition result {A : Type} (run : outcome A * globals * list line) : outcome A :=
  fst (fst run).
Definition final {A : Type} (run : outcome A * globals * list line) : globals :=
  snd (fst run).
Definition printed {A : Type} (run : outcome A * globals * list line) : list line :=
  snd run.

(** ** The specification's vocabulary *)



(** An estimate beats the consensus when its absolute deviation from the
    ground truth is strictly less than the consensus's. *)
Definition beats (truth consensus e : Q) : Prop :=
  Qabs (e - truth) < Qabs (consensus - truth).



(** ** Runs of the cell *)

Example run_scenario :
  penelope_cell [1000; 1200; 1400; 1600] fresh_kernel =
  (Returned [false; false; true; false],
   mkGlobals (Some [1000; 1200; 1400; 1600])
             (Some (fin (np_sum [1000; 1200; 1400; 1600] / 4)))
             (Some 1%Z) (Some 1600),
   [WinnerLine; AverageLine (fin (np_sum [1000; 1200; 1400; 1600] / 4));
    CountLine 1; PercentLine (np_round (1 / 4) 0)]).
Proof. reflexivity. Qed.

Lemma for_guess_in_run (truth : Q) (a : float64) (xs : list Q) :
  forall (l : option (list Q)) (w : Z) (gs : option Q),
    let vs := map (fun x => closer truth x a) xs in
    for_guess_in truth xs (mkGlobals l (Some a) (Some w) gs) =
    (Returned vs,
     mkGlobals l (Some a) (Some (w + Z.of_nat (count_true vs))%Z)
               (final_guess xs gs),
     repeat WinnerLine (count_true vs)).
Proof.
  induction xs as [|x rest IH]; intros l w gs; cbn -[Z.add Z.of_nat].
  - unfold Py.ret. now rewrite Z.add_0_r.
  - unfold Py.bind at 1. cbn -[Z.add Z.of_nat for_guess_in].
    destruct (closer truth x a) eqn:Hx; cbn -[Z.add Z.of_nat for_guess_in];
      unfold Py.bind; rewrite IH; cbn -[Z.add Z.of_nat];
      rewrite app_nil_r; unfold count_true, final_guess; cbn [fold_left].
    + rewrite Nat2Z.inj_succ, <- Z.add_1_l, Z.add_assoc. reflexivity.
    + reflexivity.
Qed.

(** The run of the cell on an empty list: the mean is [nan], nothing is
    counted, two lines are printed, and the division of the last line
    raises. *)
Lemma cell_empty_run (truth : Q) (g : globals) :
  cell truth [] g =
  (Raised ZeroDivisionError,
   mkGlobals (Some []) (Some nan) (Some 0%Z) (guess g),
   [AverageLine nan; CountLine 0]).
Proof. reflexivity. Qed.

Lemma len_pos {A : Type} (l : list A) : l <> [] -> (0 < len l)%Z.
Proof. destruct l; [congruence | unfold len; cbn [length]; lia]. Qed.

(** The run of the cell on a list with at least one guess. *)
Lemma cell_run (truth : Q) (guesses : list Q) (g : globals) :
  guesses <> [] ->
  let a := fin (average guesses) in
  let vs := map (fun x => closer truth x a) guesses in
  let w := Z.of_nat (count_true vs) in
  cell truth guesses g =
  (Returned vs,
   mkGlobals (Some guesses) (Some a) (Some w) (final_guess guesses (guess g)),
   repeat WinnerLine (count_true vs) ++
   [AverageLine a; CountLine w;
    PercentLine (np_round (inject_Z w / inject_Z (len guesses)) 0)]).
Proof.
  intros Hne a vs w. pose proof (len_pos guesses Hne) as Hlen.
  assert (Hz : (len guesses =? 0)%Z = false) by (apply Z.eqb_neq; lia).
  unfold cell. unfold Py.bind at 1. cbn -[for_guess_in np_round len].
  unfold np_mean. rewrite Hz. fold (average guesses). fold a.
  unfold Py.bind at 1. rewrite for_guess_in_run. fold vs.
  rewrite Z.add_0_l. fold w.
  unfold winner_fraction, Py.bind, Py.load, Py.print, Py.truediv.
  cbn -[np_round len Z.add Z.of_nat]. rewrite Hz.
  reflexivity.
Qed.

(** ** Arithmetic of the model *)

Lemma Qltb_iff (x y : Q) : Qltb x y = true <-> x < y.
Proof.
  unfold Qltb. rewrite Qlt_alt.
  destruct (x ?= y); split; congruence.
Qed.

Lemma Qltb_false_iff (x y : Q) : Qltb x y = false <-> y <= x.
Proof.
  split; intro H.
  - apply Qnot_lt_le. intro Hlt. apply Qltb_iff in Hlt. congruence.
  - destruct (Qltb x y) eqn:E; [|reflexivity].
    apply Qltb_iff in E. exfalso. revert E. apply Qle_not_lt. exact H.
Qed.

#[local] Instance Qltb_wd : Proper (Qeq ==> Qeq ==> eq) Qltb.
Proof.
  intros x x' Hx y y' Hy. unfold Qltb. now rewrite Hx, Hy.
Qed.









Lemma count_true_le (bs : list bool) : (count_true bs <= length bs)%nat.
Proof. apply filter_length_le. Qed.



Lemma count_true_all_false (bs : list bool) :
  (forall b, In b bs -> b = false) -> count_true bs = 0%nat.
Proof.
  unfold count_true. induction bs as [|b bs IH]; intro H; [reflexivity|].
  cbn [filter]. rewrite (H b (or_introl eq_refl)).
  apply IH. intros b' Hb'. apply H. now right.
Qed.

Lemma fraction_bounds (w n : Z) :
  (0 <= w <= n)%Z -> (0 < n)%Z -> 0 <= inject_Z w / inject_Z n <= 1.
Proof.
  intros [Hw Hn] Hpos.
  assert (Hq : 0 < inject_Z n) by (change 0 with (inject_Z 0); now rewrite <- Zlt_Qlt).
  split.
  - apply Qle_shift_div_l; [exact Hq|].
    rewrite Qmult_0_l. change 0 with (inject_Z 0). now rewrite <- Zle_Qle.
  - apply Qle_shift_div_r; [exact Hq|].
    rewrite Qmult_1_l. now rewrite <- Zle_Qle.
Qed.

Lemma rint_wd (x y : Q) : x == y -> rint x = rint y.
Proof.
  intro H. unfold rint. cbv zeta. rewrite (Qfloor_comp x y H).
  assert (E : (x - inject_Z (Qfloor y) ?= 1 # 2) =
              (y - inject_Z (Qfloor y) ?= 1 # 2)).
  { apply Qcompare_comp; [now rewrite H | reflexivity]. }
  now rewrite E.
Qed.

(** On the unit interval [rint] is 0 up to and including one half, and 1
    above it. *)
Lemma rint_unit (x : Q) :
  0 <= x <= 1 ->
  (rint x = 0%Z /\ x <= 1 # 2) \/ (rint x = 1%Z /\ 1 # 2 < x).
Proof.
  intros [H0 H1].
  pose proof (Qfloor_le x) as Hlo. pose proof (Qlt_floor x) as Hhi.
  assert (Hf : (Qfloor x = 0 \/ Qfloor x = 1)%Z).
  { assert (Hle : (Qfloor x <= 1)%Z).
    { rewrite Zle_Qle. change (inject_Z 1) with 1. lra. }
    assert (Hge : (0 < Qfloor x + 1)%Z).
    { rewrite Zlt_Qlt. change (inject_Z 0) with 0. lra. }
    lia. }
  unfold rint.
  destruct Hf as [Hf|Hf]; rewrite Hf in *;
    [change (inject_Z 0) with 0 in * | change (inject_Z 1) with 1 in *];
    change (inject_Z (0 + 1)) with 1 in *;
    match goal with |- context [?a ?= ?b] => destruct (Qcompare_spec a b) end;
    cbn [Z.even]; try (left; split; [reflexivity | lra]);
    try (right; split; [reflexivity | lra]); exfalso; lra.
Qed.

Lemma np_round_0 (x : Q) : np_round x 0 == inject_Z (rint x).
Proof.
  unfold np_round. change (inject_Z (10 ^ Z.of_nat 0)) with 1.
  rewrite (rint_wd (x * 1) x) by ring. field.
Qed.

Lemma winner_fraction_run (l : list Q) (a : float64) (w : Z) (gs : option Q) :
  l <> [] ->
  winner_fraction (mkGlobals (Some l) (Some a) (Some w) gs) =
  (Returned (inject_Z w / inject_Z (len l)),
   mkGlobals (Some l) (Some a) (Some w) gs, []).
Proof.
  intro Hne. pose proof (len_pos l Hne) as Hlen.
  assert (Hz : (len l =? 0)%Z = false) by (apply Z.eqb_neq; lia).
  unfold winner_fraction, Py.bind, Py.load, Py.truediv.
  cbn -[len]. now rewrite Hz.
Qed.


(** ** The claims *)









(** C5. The scenario of the specification, on the cell as written (true
    weight 1355): the guesses 1000, 1200, 1400, 1600 deviate from the truth
    by 355, 155, 45 and 245, the consensus is 1300 and deviates by 55, the
    verdicts are false, false, true, false, the winner count is 1 and the
    winner fraction is 0.25. *)
Theorem penelope_scenario (g : globals) :
  exists c f,
    penelope_cell [1000; 1200; 1400; 1600] g =
    (Returned [false; false; true; false],
     mkGlobals (Some [1000; 1200; 1400; 1600]) (Some (fin c)) (Some 1%Z)
               (Some 1600),
     [WinnerLine; AverageLine (fin c); CountLine 1;
      PercentLine (np_round f 0)]) /\
    c == 1300 /\
    map (fun e => Qabs (e - 1355)) [1000; 1200; 1400; 1600] = [355; 155; 45; 245] /\
    Qabs (c - 1355) == 55 /\
    result (winner_fraction (final (penelope_cell [1000; 1200; 1400; 1600] g))) =
      Returned f /\
    f == 0.25.
Proof.
  unfold penelope_cell.
  rewrite (cell_run 1355 [1000; 1200; 1400; 1600] g) by discriminate.
  exists (average [1000; 1200; 1400; 1600]), (inject_Z 1 / inject_Z 4).
  repeat split.
Qed.

Lemma map_all_false {A : Type} (f : A -> bool) (l : list A) :
  (forall x, In x l -> f x = false) -> map f l = repeat false (length l).
Proof.
  induction l as [|x l IH]; intro H; [reflexivity|].
  cbn [map length repeat]. rewrite (H x (or_introl eq_refl)).
  f_equal. apply IH. intros y Hy. apply H. now right.
Qed.

Lemma count_true_repeat_false (n : nat) : count_true (repeat false n) = 0%nat.
Proof.
  apply count_true_all_false. intros b Hb. now apply repeat_spec in Hb.
Qed.

Lemma closer_on_truth (truth x c : Q) :
  c == truth -> closer truth x (fin c) = false.
Proof.
  intro Hc. apply Qltb_false_iff.
  assert (E : c - truth == 0) by (rewrite Hc; ring).
  rewrite E. apply Qabs_nonneg.
Qed.

(** C6. When the consensus of a non-empty list equals the truth, every
    verdict is [false] and the winner count is 0, also for a guess that
    itself equals the truth: it does not beat the consensus. In particular
    three guesses of 500 against a truth of 500 give the consensus 500 and
    the winner count 0. *)
Theorem consensus_on_truth_has_no_winner :
  (forall (truth : Q) (guesses : list Q) (g : globals) (c : Q),
      guesses <> [] ->
      average_guess (final (cell truth guesses g)) = Some (fin c) ->
      c == truth ->
      winner_count (final (cell truth guesses g)) = Some 0%Z /\
      result (cell truth guesses g) = Returned (repeat false (length guesses)) /\
      (forall e, e == truth -> ~ beats truth c e))
  /\ (forall g : globals,
         exists c,
           cell 500 [500; 500; 500] g =
           (Returned [false; false; false],
            mkGlobals (Some [500; 500; 500]) (Some (fin c)) (Some 0%Z) (Some 500),
            [AverageLine (fin c); CountLine 0;
             PercentLine (np_round (0 / 3) 0)]) /\
           c == 500).
Proof.
  split.
  - intros truth guesses g c Hne Havg Hc.
    rewrite (cell_run truth guesses g Hne) in *.
    cbn [final result fst snd average_guess winner_count] in *.
    injection Havg as Havg.
    assert (Hvs : map (fun x => closer truth x (fin (average guesses))) guesses
                  = repeat false (length guesses)).
    { apply map_all_false. intros x _. apply closer_on_truth.
      now rewrite Havg. }
    rewrite Hvs, count_true_repeat_false.
    repeat split. intros e He Hb. unfold beats in Hb.
    rewrite He, Hc in Hb. revert Hb. apply Qlt_irrefl.
  - intro g. rewrite (cell_run 500 [500; 500; 500] g) by discriminate.
    exists (average [500; 500; 500]). split; reflexivity.
Qed.

Lemma consensus_on_truth_has_no_winner_witness :
  winner_count (final (penelope_cell [1300; 1410; 1355] fresh_kernel)) = Some 0%Z /\
  result (penelope_cell [1300; 1410; 1355] fresh_kernel) =
    Returned (repeat false (length [1300; 1410; 1355])) /\
  (forall e, e == 1355 -> ~ beats 1355 (average [1300; 1410; 1355]) e).
Proof.
  apply (proj1 consensus_on_truth_has_no_winner 1355 [1300; 1410; 1355] fresh_kernel).
  - discriminate.
  - reflexivity.
  - reflexivity.
Defined.


Lemma final_guess_cons (x : Q) (l : list Q) (a b : option Q) :
  final_guess (x :: l) a = final_guess (x :: l) b.
Proof. reflexivity. Qed.

(** C8. The cell keeps no hidden state: run from any two kernels on the
    same guesses it has the same outcome (verdicts or exception), prints the
    same lines, and leaves the same consensus, winner count and winner
    fraction; the list of guesses it leaves is the list it was given; and
    run a second time, on the kernel the first run left, it does exactly
    what the first run did. *)
Theorem cell_is_deterministic_and_pure
    (truth : Q) (guesses : list Q) (g1 g2 : globals) :
  result (cell truth guesses g1) = result (cell truth guesses g2) /\
  printed (cell truth guesses g1) = printed (cell truth guesses g2) /\
  average_guess (final (cell truth guesses g1)) =
    average_guess (final (cell truth guesses g2)) /\
  winner_count (final (cell truth guesses g1)) =
    winner_count (final (cell truth guesses g2)) /\
  result (winner_fraction (final (cell truth guesses g1))) =
    result (winner_fraction (final (cell truth guesses g2))) /\
  list_of_guesses (final (cell truth guesses g1)) = Some guesses /\
  cell truth guesses (final (cell truth guesses g1)) = cell truth guesses g1.
Proof.
  destruct guesses as [|x l].
  - rewrite !cell_empty_run. repeat split.
  - assert (Hne : x :: l <> []) by discriminate.
    rewrite (cell_run truth (x :: l) g1 Hne), (cell_run truth (x :: l) g2 Hne).
    cbn [result final printed fst snd average_guess winner_count list_of_guesses].
    rewrite !(winner_fraction_run (x :: l)) by exact Hne.
    repeat split.
    rewrite (cell_run truth (x :: l) _ Hne).
    cbn [guess]. now rewrite (final_guess_cons x l _ (guess g1)).
Qed.




Lemma fraction_pos (w n : Z) :
  (0 < w)%Z -> (0 < n)%Z -> 0 < inject_Z w / inject_Z n.
Proof.
  intros Hw Hn.
  apply Qlt_shift_div_l.
  - change 0 with (inject_Z 0). now rewrite <- Zlt_Qlt.
  - rewrite Qmult_0_l. change 0 with (inject_Z 0). now rewrite <- Zlt_Qlt.
Qed.

(** C10. The number the last line shows before the percent sign is the
    winner fraction rounded to no decimals, not multiplied by 100: on a
    non-empty list it is 0 or 1 (1 exactly when more than half of the
    guesses won), and as soon as there is a winner it differs from 100
    times the winner fraction. *)
Theorem shown_percent_is_rounded_fraction
    (truth : Q) (guesses : list Q) (g : globals) :
  guesses <> [] ->
  exists w p before,
    winner_count (final (cell truth guesses g)) = Some w /\
    printed (cell truth guesses g) = before ++ [PercentLine p] /\
    p = np_round (inject_Z w / inject_Z (len guesses)) 0 /\
    (p == 0 \/ p == 1) /\
    (p == 1 <-> 1 # 2 < inject_Z w / inject_Z (len guesses)) /\
    ((0 < w)%Z -> ~ p == 100 * (inject_Z w / inject_Z (len guesses))).
Proof.
  intro Hne. rewrite (cell_run truth guesses g Hne).
  cbn [final printed fst snd winner_count].
  set (vs := map (fun x => closer truth x (fin (average guesses))) guesses).
  set (w := Z.of_nat (count_true vs)).
  assert (Hw : (0 <= w <= len guesses)%Z).
  { pose proof (count_true_le vs) as H. unfold vs in H at 2.
    rewrite length_map in H. unfold w, len. lia. }
  pose proof (len_pos guesses Hne) as Hlen.
  pose proof (fraction_bounds w (len guesses) Hw Hlen) as Hf.
  pose proof (np_round_0 (inject_Z w / inject_Z (len guesses))) as Hp.
  exists w, (np_round (inject_Z w / inject_Z (len guesses)) 0).
  exists (repeat WinnerLine (count_true vs) ++
          [AverageLine (fin (average guesses)); CountLine w]).
  split; [reflexivity|]. split; [now rewrite <- app_assoc|].
  split; [reflexivity|].
  destruct (rint_unit _ Hf) as [[Hr Hhalf]|[Hr Hhalf]]; rewrite Hr in Hp;
    [change (inject_Z 0) with 0 in Hp | change (inject_Z 1) with 1 in Hp].
  - split; [now left|]. split.
    + split; intro H; exfalso; lra.
    + intros Hpos H. pose proof (fraction_pos w (len guesses) Hpos Hlen). lra.
  - split; [now right|]. split.
    + split; intro H; [exact Hhalf | exact Hp].
    + intros _ H. lra.
Qed.

(** On the scenario's guesses one of four wins: the line shows 0, the
    winner fraction is 1/4 and a hundred times it is 25. *)
Lemma shown_percent_is_rounded_fraction_witness :
  exists p before,
    printed (penelope_cell [1000; 1200; 1400; 1600] fresh_kernel) =
      before ++ [PercentLine p] /\
    p == 0 /\
    100 * (inject_Z 1 / inject_Z (len [1000; 1200; 1400; 1600])) == 25 /\
    (p == 100 * (inject_Z 1 / inject_Z (len [1000; 1200; 1400; 1600])) -> False).
Proof.
  destruct (shown_percent_is_rounded_fraction 1355 [1000; 1200; 1400; 1600]
              fresh_kernel ltac:(discriminate))
    as (w & p & before & Hw & Hpr & Hp & _ & _ & Hne).
  assert (E : w = 1%Z) by (vm_compute in Hw; congruence).
  subst w. exists p, before.
  split; [exact Hpr|]. split; [rewrite Hp; reflexivity|].
  split; [reflexivity|]. apply Hne. reflexivity.
Defined.

(** ** Further properties of the cell *)

(** *** Sums and bounds *)












(** *** Lists of verdicts *)






(** *** Changing the unit of the weights *)







(** *** The properties *)











(** X6. The loop only counts: started with the average and the winner count
    bound, it raises no exception, gives one verdict per item, prints
    nothing but winner lines, leaves the list of guesses and the average as
    they were, and raises the winner count by exactly the number of lines
    it printed, which is at most the number of items. *)
Theorem loop_only_counts
    (truth : Q) (xs : list Q) (g : globals) (a : float64) (w : Z) :
  average_guess g = Some a ->
  winner_count g = Some w ->
  exists vs n,
    result (for_guess_in truth xs g) = Returned vs /\
    length vs = length xs /\
    printed (for_guess_in truth xs g) = repeat WinnerLine n /\
    (n <= length xs)%nat /\
    list_of_guesses (final (for_guess_in truth xs g)) = list_of_guesses g /\
    average_guess (final (for_guess_in truth xs g)) = Some a /\
    winner_count (final (for_guess_in truth xs g)) = Some (w + Z.of_nat n)%Z.
Proof.
  destruct g as [l oa ow gs]. cbn [average_guess winner_count]. intros -> ->.
  rewrite for_guess_in_run.
  cbn [result final printed fst snd list_of_guesses average_guess winner_count].
  eexists. eexists. split; [reflexivity|]. split; [apply length_map|].
  split; [reflexivity|]. split; [|repeat split].
  pose proof (count_true_le (map (fun x => closer truth x a) xs)) as H.
  now rewrite length_map in H.
Qed.

Lemma loop_only_counts_witness :
  exists vs n,
    result (for_guess_in 1355 [1300; 1400]
              (mkGlobals None (Some (fin 1200)) (Some 5%Z) None)) = Returned vs /\
    length vs = length [1300; 1400] /\
    printed (for_guess_in 1355 [1300; 1400]
               (mkGlobals None (Some (fin 1200)) (Some 5%Z) None)) =
      repeat WinnerLine n /\
    (n <= length [1300; 1400])%nat /\
    list_of_guesses
      (final (for_guess_in 1355 [1300; 1400]
                (mkGlobals None (Some (fin 1200)) (Some 5%Z) None))) =
      list_of_guesses (mkGlobals None (Some (fin 1200)) (Some 5%Z) None) /\
    average_guess
      (final (for_guess_in 1355 [1300; 1400]
                (mkGlobals None (Some (fin 1200)) (Some 5%Z) None))) =
      Some (fin 1200) /\
    winner_count
      (final (for_guess_in 1355 [1300; 1400]
                (mkGlobals None (Some (fin 1200)) (Some 5%Z) None))) =
      Some (5 + Z.of_nat n)%Z.
Proof.
  apply (loop_only_counts 1355 [1300; 1400]
           (mkGlobals None (Some (fin 1200)) (Some 5%Z) None) (fin 1200) 5);
    reflexivity.
Defined.




